(** * omron_load_display: the CompoWay/F frame codec of the K3HB polling scripts

    A shallow embedding of [OmronV3.py] and [Omron_TestScript_v2.py]:
    the block check character, the request frame built in the main loop,
    response validation, data-section extraction, the two's-complement
    decoding and the scaling of the reading.

    Layout: the Python runtime the scripts rely on ([Py]), then one module
    per script, then the theorems. *)

From Stdlib Require Import ZArith List Ascii String QArith Lia Bool Permutation.
Import ListNotations.
Open Scope Z_scope.

(* ================================================================== *)
(** * The Python runtime used by the scripts *)
(* ================================================================== *)

Module Py.

(** A [str] is a sequence of characters.  The scripts only ever hold text
    produced by [bytes.decode('ascii', errors='ignore')] or ASCII literals;
    the model has 8-bit characters, of which the codes below 128 are the
    ASCII ones. *)
Definition str : Type := list ascii.

(** A string literal. *)
Definition lit (text : string) : str := list_ascii_of_string text.

Definition ord (c : ascii) : Z := Z.of_nat (nat_of_ascii c).

(** Exceptions the modelled code can raise.  [ValueError msg] is
    [ValueError(msg)]; [ValueError_invalid_literal base text] is the
    [ValueError] that [int(text, base)] raises (its message quotes the
    offending text). *)
Inductive exception : Type :=
| ValueError (msg : string)
| ValueError_invalid_literal (base : Z) (text : str)
| UnicodeEncodeError.

(** Either a returned value or a raised exception. *)
Inductive result (A : Type) : Type :=
| Ok (a : A)
| Raise (e : exception).
Arguments Ok {A} a.
Arguments Raise {A} e.

Definition bind {A B} (m : result A) (k : A -> result B) : result B :=
  match m with
  | Ok a => k a
  | Raise e => Raise e
  end.

(** ** Sequences: [len], slicing, [in], [index] *)

Definition len {A} (l : list A) : Z := Z.of_nat (List.length l).

(** A slice bound as Python normalises it: a negative bound counts from the
    end, then the bound is clamped to [0, len]. *)
Definition adjust_index (length_ i : Z) : Z :=
  let i := if i <? 0 then i + length_ else i in
  if i <? 0 then 0 else if length_ <? i then length_ else i.

(** [slice l start stop] is [l[start:stop]]; [None] is an omitted bound. *)
Definition slice {A} (l : list A) (start stop : option Z) : list A :=
  let lo := match start with None => 0 | Some i => adjust_index (len l) i end in
  let hi := match stop with None => len l | Some i => adjust_index (len l) i end in
  firstn (Z.to_nat (hi - lo)) (skipn (Z.to_nat lo) l).

(** [c in s] for a one-character [c]. *)
Definition contains (c : ascii) (s : str) : bool := existsb (Ascii.eqb c) s.

(** [s.index(c)] for a one-character [c]: the position of its first
    occurrence, [ValueError] when there is none. *)
Fixpoint index (c : ascii) (s : str) : result Z :=
  match s with
  | [] => Raise (ValueError "substring not found")
  | x :: t =>
      if Ascii.eqb x c then Ok 0
      else bind (index c t) (fun i => Ok (i + 1))
  end.

(** ** Bytes *)

(** A [bytearray] holds integers in [range(256)]. *)
Definition bytearray : Type := list Z.

(** [frame.append(x)] *)
Definition bytearray_append (frame : bytearray) (x : Z) : result bytearray :=
  if (0 <=? x) && (x <? 256) then Ok (frame ++ [x])
  else Raise (ValueError "byte must be in range(0, 256)").

(** [s.encode('ascii')] *)
Fixpoint encode_ascii (s : str) : result (list Z) :=
  match s with
  | [] => Ok []
  | c :: t =>
      if ord c <? 128 then bind (encode_ascii t) (fun bs => Ok (ord c :: bs))
      else Raise UnicodeEncodeError
  end.

(** [chr(n)] for a code below 256. *)
Definition chr (n : Z) : ascii := ascii_of_nat (Z.to_nat n).

(** [raw.decode('ascii', errors='ignore')] on the bytes [raw]: a byte
    below 0x80 is the character of that code, any other byte is dropped. *)
Definition decode_ascii_ignore (raw : list Z) : str :=
  map chr (filter (fun b => b <? 128) raw).

(** ** [int(text, 16)] *)

(** White space that [int] skips at both ends of its argument. *)
Definition isspace (c : ascii) : bool :=
  let n := ord c in
  ((9 <=? n) && (n <=? 13)) || (n =? 32) || (n =? 133) || (n =? 160).

(** The value of a hexadecimal digit. *)
Definition digit_value (c : ascii) : option Z :=
  let n := ord c in
  if (48 <=? n) && (n <=? 57) then Some (n - 48)
  else if (97 <=? n) && (n <=? 102) then Some (n - 87)
  else if (65 <=? n) && (n <=? 70) then Some (n - 55)
  else None.

Fixpoint lstrip (s : str) : str :=
  match s with
  | c :: t => if isspace c then lstrip t else s
  | [] => []
  end.

(** Reads digits, with single underscores allowed between them, up to the
    first character that is neither; gives the value read, the number of
    digits and the rest of the text.  Two underscores in a row or an
    underscore not followed by a digit are refused. *)
Fixpoint scan_digits (s : str) (acc : Z) (ndigits : nat) (after_underscore : bool)
  : option (Z * nat * str) :=
  match s with
  | [] => if after_underscore then None else Some (acc, ndigits, [])
  | c :: t =>
      if Ascii.eqb c "_" then
        if after_underscore then None else scan_digits t acc ndigits true
      else
        match digit_value c with
        | Some d => scan_digits t (acc * 16 + d) (S ndigits) false
        | None => if after_underscore then None else Some (acc, ndigits, s)
        end
  end.

(** An optional sign; the flag says whether it was a minus. *)
Definition skip_sign (s : str) : bool * str :=
  match s with
  | c :: t =>
      if Ascii.eqb c "+" then (false, t)
      else if Ascii.eqb c "-" then (true, t)
      else (false, s)
  | [] => (false, s)
  end.

(** An optional [0x] or [0X], which one underscore may follow. *)
Definition skip_prefix (s : str) : str :=
  match s with
  | z :: x :: t =>
      if Ascii.eqb z "0" && (Ascii.eqb x "x" || Ascii.eqb x "X") then
        match t with
        | u :: t' => if Ascii.eqb u "_" then t' else t
        | [] => t
        end
      else s
  | _ => s
  end.

Definition starts_with (c : ascii) (s : str) : bool :=
  match s with
  | x :: _ => Ascii.eqb x c
  | [] => false
  end.

(** [int(text, 16)]: optional white space, an optional sign, an optional
    prefix, at least one hexadecimal digit (the digits may not start with
    an underscore), optional white space. *)
Definition int_base16 (text : str) : result Z :=
  let invalid := Raise (ValueError_invalid_literal 16 text) in
  let '(negative, s) := skip_sign (lstrip text) in
  let s := skip_prefix s in
  if starts_with "_" s then invalid
  else
    match scan_digits s 0 0 false with
    | Some (value, S _, rest) =>
        match lstrip rest with
        | [] => Ok (if negative then - value else value)
        | _ :: _ => invalid
        end
    | _ => invalid
    end.

(** ** True division of integers

    [a / b] on Python integers is the quotient as a number, not its floor.
    The model keeps the exact quotient as a rational; the [float] Python
    returns is the binary64 value nearest to it and is not modelled, nor is
    the [ZeroDivisionError] of a zero divisor (the scripts divide by the
    literal 10). *)
Definition truediv (a b : Z) : Q := (inject_Z a / inject_Z b)%Q.

End Py.

Notation "x <- m ;; k" := (Py.bind m (fun x => k))
  (at level 61, m at next level, right associativity).

(** ** The calls the main loop makes

    The [try] block of the main loop calls the codec functions one after
    the other and stops at the first exception.  A run of it is the list of
    calls it made, in order, together with its outcome. *)

Inductive call : Type :=
| Call_validate_and_clean_response (response : Py.str)
| Call_extract_data_section (response : Py.str)
| Call_decode_signed_value (hex_value : Py.str)
| Call_int (text : Py.str).

Definition run (A : Type) : Type := (list call * Py.result A)%type.

(** Make the call [c], whose outcome is [r], then go on with [k]. *)
Definition invoke {A B} (c : call) (r : Py.result A) (k : A -> run B) : run B :=
  match r with
  | Py.Ok a => let '(calls, out) := k a in (c :: calls, out)
  | Py.Raise e => ([c], Py.Raise e)
  end.

Notation "x <-[ c ] m ;; k" := (invoke c m (fun x => k))
  (at level 61, m at next level, right associativity).

(* ================================================================== *)
(** * OmronV3.py *)
(* ================================================================== *)

Module OmronV3.
Import Py.

(** [calculate_bcc(data)]: the running XOR over [data], starting from 0. *)
Definition calculate_bcc (data : list Z) : Z :=
  fold_left (fun bcc byte => Z.lxor bcc byte) data 0.

(** [validate_and_clean_response(response)] *)
Definition validate_and_clean_response (response : str) : result str :=
  match response with
  | [] => Raise (ValueError "Missing STX at the beginning of the frame.")
  | c :: _ =>
      if negb (Ascii.eqb c "002") then
        Raise (ValueError "Missing STX at the beginning of the frame.")
      else if negb (contains "003" response) then
        Raise (ValueError "Missing ETX in the frame.")
      else
        (* Trim everything after the first ETX *)
        i <- index "003" response ;;
        Ok (slice response None (Some (i + 1)))
  end.

(** [extract_data_section(response)] *)
Definition extract_data_section (response : str) : result str :=
  (* Strip STX and ETX *)
  let frame_body := slice response (Some 1) (Some (-1)) in
  (* Check minimum length of the response frame *)
  if len frame_body <? 16 then
    Raise (ValueError "Frame too short to extract data")
  else
    let data_section := slice frame_body (Some 13) None in
    Ok data_section.

(** [decode_signed_value(hex_value, bit_length=16)].  [2 ** k] is [2 ^ k]
    for the bit lengths from 1 on; the script only uses the default, 16. *)
Definition decode_signed_value (hex_value : str) (bit_length : Z) : result Z :=
  value <- int_base16 hex_value ;;
  (* Check if the value is negative in two's complement *)
  if value >=? 2 ^ (bit_length - 1) then Ok (value - 2 ^ bit_length)
  else Ok value.

(** Frame components *)
Definition STX : Z := 2.
Definition ETX : Z := 3.
Definition Node : str := lit "01".
Definition SubAddress : str := lit "00".
Definition ServiceID : str := lit "0".
Definition MRC : str := lit "01".
Definition SRC : str := lit "01".
Definition Variable_Type : str := lit "C0".
Definition Address : str := lit "0002".
Definition Bit_Position : str := lit "00".
Definition Number_of_Elements : str := lit "0001".
Definition CommandText : str :=
  Variable_Type ++ Address ++ Bit_Position ++ Number_of_Elements.
Definition data_ascii : str :=
  Node ++ SubAddress ++ ServiceID ++ MRC ++ SRC ++ CommandText.

(** The frame the main loop constructs before [ser.write(frame)], as a
    function of the command text it reads from the global [data_ascii]. *)
Definition build_frame (data_ascii : str) : result bytearray :=
  let frame : bytearray := [] in
  frame <- bytearray_append frame STX ;;
  data <- encode_ascii data_ascii ;;
  let frame := frame ++ data in
  frame <- bytearray_append frame ETX ;;
  (* Calculate and append the BCC *)
  let bcc := calculate_bcc (slice frame (Some 1) None) in
  frame <- bytearray_append frame bcc ;;
  Ok frame.

(** The frame the script sends. *)
Definition frame : result bytearray := build_frame data_ascii.

(** Step 3 of the main loop and the scaling after it,
    [decode_signed_value(data_section) / 10]: the [decode_signed] of the
    specification at bit width 16 and scale 10. *)
Definition display_value (data_section : str) : result Q :=
  decoded_value <- decode_signed_value data_section 16 ;;
  Ok (truediv decoded_value 10).

(** The [try] block of the main loop, from the decoded [raw_response] to
    the value it publishes. *)
Definition process_response (raw_response : str) : run Q :=
  cleaned_response <-[ Call_validate_and_clean_response raw_response ]
    validate_and_clean_response raw_response ;;
  data_section <-[ Call_extract_data_section cleaned_response ]
    extract_data_section cleaned_response ;;
  decoded_value <-[ Call_decode_signed_value data_section ]
    decode_signed_value data_section 16 ;;
  let display_value := truediv decoded_value 10 in
  ([], Ok display_value).

(** The [else] branch of the main loop up to the value it publishes: the
    bytes read from the port, [ser.read(ser.in_waiting)], are decoded and
    run through the [try] block. *)
Definition read_and_process (raw : list Z) : run Q :=
  let raw_response := decode_ascii_ignore raw in
  process_response raw_response.

End OmronV3.

(* ================================================================== *)
(** * Omron_TestScript_v2.py *)
(* ================================================================== *)

Module Omron_TestScript_v2.
Import Py.

(** [calculate_bcc(data)] *)
Definition calculate_bcc (data : list Z) : Z :=
  fold_left (fun bcc byte => Z.lxor bcc byte) data 0.

(** [validate_and_clean_response(response)] *)
Definition validate_and_clean_response (response : str) : result str :=
  match response with
  | [] => Raise (ValueError "Missing STX at the beginning of the frame.")
  | c :: _ =>
      if negb (Ascii.eqb c "002") then
        Raise (ValueError "Missing STX at the beginning of the frame.")
      else if negb (contains "003" response) then
        Raise (ValueError "Missing ETX in the frame.")
      else
        i <- index "003" response ;;
        Ok (slice response None (Some (i + 1)))
  end.

(** [extract_data_section(response)] *)
Definition extract_data_section (response : str) : result str :=
  let frame_body := slice response (Some 1) (Some (-1)) in
  if len frame_body <? 16 then
    Raise (ValueError "Frame too short to extract data")
  else
    let data_section := slice frame_body (Some 13) None in
    Ok data_section.

(** Frame components *)
Definition STX : Z := 2.
Definition ETX : Z := 3.
Definition Node : str := lit "01".
Definition SubAddress : str := lit "00".
Definition ServiceID : str := lit "0".
Definition MRC : str := lit "01".
Definition SRC : str := lit "01".
Definition Variable_Type : str := lit "C0".
Definition Address : str := lit "0002".
Definition Bit_Position : str := lit "00".
Definition Number_of_Elements : str := lit "0001".
Definition CommandText : str :=
  Variable_Type ++ Address ++ Bit_Position ++ Number_of_Elements.
Definition data_ascii : str :=
  Node ++ SubAddress ++ ServiceID ++ MRC ++ SRC ++ CommandText.

(** The frame the main loop constructs. *)
Definition build_frame (data_ascii : str) : result bytearray :=
  let frame : bytearray := [] in
  frame <- bytearray_append frame STX ;;
  data <- encode_ascii data_ascii ;;
  let frame := frame ++ data in
  frame <- bytearray_append frame ETX ;;
  let bcc := calculate_bcc (slice frame (Some 1) None) in
  frame <- bytearray_append frame bcc ;;
  Ok frame.

Definition frame : result bytearray := build_frame data_ascii.

(** [int(data_section, 16) / 10]: the value is scaled as parsed. *)
Definition display_value (data_section : str) : result Q :=
  value <- int_base16 data_section ;;
  Ok (truediv value 10).

(** The [try] block of the main loop. *)
Definition process_response (raw_response : str) : run Q :=
  cleaned_response <-[ Call_validate_and_clean_response raw_response ]
    validate_and_clean_response raw_response ;;
  data_section <-[ Call_extract_data_section cleaned_response ]
    extract_data_section cleaned_response ;;
  value <-[ Call_int data_section ]
    int_base16 data_section ;;
  let display_value := truediv value 10 in
  ([], Ok display_value).

(** The [else] branch of the main loop. *)
Definition read_and_process (raw : list Z) : run Q :=
  let raw_response := decode_ascii_ignore raw in
  process_response raw_response.

End Omron_TestScript_v2.

(* ================================================================== *)
(** * The error kinds of the specification

    The scripts raise every framing and decoding error as a [ValueError];
    the kinds are told apart by the message. *)
(* ================================================================== *)

Definition MissingSTX : Py.exception :=
  Py.ValueError "Missing STX at the beginning of the frame.".
Definition MissingETX : Py.exception :=
  Py.ValueError "Missing ETX in the frame.".
Definition FrameTooShort : Py.exception :=
  Py.ValueError "Frame too short to extract data".

(** The frame delimiters as characters of a decoded response. *)
Definition STX_chr : ascii := "002".
Definition ETX_chr : ascii := "003".

(** The values a [bytearray] can hold. *)
Definition is_byte (x : Z) : Prop := 0 <= x < 256.

(** A run attempts hexadecimal parsing when it calls [decode_signed_value]
    (whose first statement is [int(hex_value, 16)]) or [int] itself. *)
Definition parses_hex (c : call) : bool :=
  match c with
  | Call_decode_signed_value _ | Call_int _ => true
  | Call_validate_and_clean_response _ | Call_extract_data_section _ => false
  end.

Definition attempts_hex_parsing {A} (r : run A) : bool :=
  existsb parses_hex (fst r).

(** The characters [int(_, 16)] reads as digits: 0-9, a-f, A-F. *)
Definition is_hex_digit (c : ascii) : bool :=
  match Py.digit_value c with
  | Some _ => true
  | None => false
  end.

(** The 7-bit character codes. *)
Definition is_ascii (c : ascii) : Prop := Py.ord c < 128.

(* ================================================================== *)
(** * Sequences and slices *)
(* ================================================================== *)

Section Slices.
Import Py.
Context {A : Type}.
Implicit Types l body : list A.

Lemma len_nonneg l : 0 <= len l.
Proof. unfold len. lia. Qed.

Lemma len_cons (a : A) l : len (a :: l) = len l + 1.
Proof. unfold len. cbn [List.length]. lia. Qed.

Lemma len_app l l' : len (l ++ l') = len l + len l'.
Proof. unfold len. rewrite length_app. lia. Qed.

Lemma adjust_index_inside n i : 0 <= i <= n -> adjust_index n i = i.
Proof.
  intros H. unfold adjust_index.
  destruct (i <? 0) eqn:E1; [apply Z.ltb_lt in E1; lia |].
  rewrite E1.
  destruct (n <? i) eqn:E2; [apply Z.ltb_lt in E2; lia | reflexivity].
Qed.

Lemma adjust_index_from_end n i : - n <= i < 0 -> adjust_index n i = i + n.
Proof.
  intros H. unfold adjust_index.
  destruct (i <? 0) eqn:E1; [| apply Z.ltb_ge in E1; lia].
  destruct (i + n <? 0) eqn:E2; [apply Z.ltb_lt in E2; lia |].
  destruct (n <? i + n) eqn:E3; [apply Z.ltb_lt in E3; lia | reflexivity].
Qed.

Lemma adjust_index_beyond n i : 0 <= n < i -> adjust_index n i = n.
Proof.
  intros H. unfold adjust_index.
  destruct (i <? 0) eqn:E1; [apply Z.ltb_lt in E1; lia |].
  rewrite E1.
  destruct (n <? i) eqn:E2; [reflexivity | apply Z.ltb_ge in E2; lia].
Qed.

(** [l[:n]] for a bound within the sequence. *)
Lemma slice_upto l n :
  0 <= n <= len l -> slice l None (Some n) = firstn (Z.to_nat n) l.
Proof.
  intros Hn. unfold slice. rewrite adjust_index_inside by assumption.
  cbn [Z.to_nat skipn]. now rewrite Z.sub_0_r.
Qed.

(** [l[n:]] for a bound that is not negative. *)
Lemma slice_from l n :
  0 <= n -> slice l (Some n) None = skipn (Z.to_nat n) l.
Proof.
  intros Hn. unfold slice. pose proof (len_nonneg l) as Hl.
  destruct (Z_le_gt_dec n (len l)) as [Hle | Hgt].
  - rewrite adjust_index_inside by lia.
    apply firstn_all2. rewrite length_skipn. unfold len in *. lia.
  - rewrite adjust_index_beyond by lia.
    rewrite Z.sub_diag. cbn [Z.to_nat firstn].
    symmetry. apply skipn_all2. unfold len in *. lia.
Qed.

(** [l[1:-1]] drops the first and the last element. *)
Lemma slice_strip_ends (a b : A) body :
  slice (a :: body ++ [b]) (Some 1) (Some (-1)) = body.
Proof.
  unfold slice. pose proof (len_nonneg body) as Hl.
  assert (Hlen : len (a :: body ++ [b]) = len body + 2).
  { rewrite len_cons, len_app. change (len [b]) with 1. lia. }
  rewrite Hlen.
  rewrite (adjust_index_inside _ 1) by lia.
  rewrite (adjust_index_from_end _ (-1)) by lia.
  change (Z.to_nat 1) with 1%nat. cbn [skipn].
  replace (Z.to_nat (-1 + (len body + 2) - 1)) with (List.length body + 0)%nat
    by (unfold len; lia).
  rewrite firstn_app_2. cbn [firstn]. apply app_nil_r.
Qed.

End Slices.

Section FirstOccurrence.
Import Py.
Implicit Types s pre rest : str.

Lemma contains_In c s : contains c s = true <-> In c s.
Proof.
  unfold contains. rewrite existsb_exists. split.
  - intros [x [Hin Heq]]. apply Ascii.eqb_eq in Heq. now subst.
  - intros Hin. exists c. split; [assumption | apply Ascii.eqb_refl].
Qed.

Lemma contains_false c s : contains c s = false <-> ~ In c s.
Proof.
  rewrite <- contains_In. destruct (contains c s); split; congruence.
Qed.

(** A sequence that holds [c] splits at the first [c]. *)
Lemma split_first c s :
  In c s -> exists pre rest, s = pre ++ c :: rest /\ ~ In c pre.
Proof.
  induction s as [| x t IH]; intros Hin; [destruct Hin |].
  destruct (ascii_dec x c) as [-> | Hne].
  - exists [], t. split; [reflexivity | intros []].
  - destruct Hin as [-> | Hin]; [congruence |].
    destruct (IH Hin) as (pre & rest & -> & Hpre).
    exists (x :: pre), rest. split; [reflexivity |].
    intros [-> | H]; [congruence | auto].
Qed.

(** [index] finds the first occurrence. *)
Lemma index_first c pre rest :
  ~ In c pre -> index c (pre ++ c :: rest) = Ok (len pre).
Proof.
  induction pre as [| x pre IH]; intros Hpre.
  - cbn [app index]. now rewrite Ascii.eqb_refl.
  - cbn [app index].
    destruct (Ascii.eqb x c) eqn:E.
    + apply Ascii.eqb_eq in E. subst. exfalso. apply Hpre. now left.
    + rewrite IH by (intros H; apply Hpre; now right).
      cbn [bind]. now rewrite len_cons.
Qed.

End FirstOccurrence.

Lemma hd_is_STX_dec (o : option ascii) :
  {o = Some STX_chr} + {o <> Some STX_chr}.
Proof.
  destruct o as [c |]; [| right; discriminate].
  destruct (ascii_dec c STX_chr) as [-> | Hne]; [now left | right; congruence].
Qed.

(** A response that starts with STX and holds an ETX is STX, a body free
    of ETX, the first ETX and a rest. *)
Lemma framed_split (response : Py.str) :
  hd_error response = Some STX_chr ->
  In ETX_chr response ->
  exists body rest,
    response = STX_chr :: body ++ ETX_chr :: rest /\ ~ In ETX_chr body.
Proof.
  intros Hhd Hin.
  destruct response as [| c t]; [discriminate |]. injection Hhd as ->.
  destruct Hin as [H | Hin]; [discriminate |].
  destruct (split_first _ _ Hin) as (body & rest & -> & Hbody).
  now exists body, rest.
Qed.

(* ================================================================== *)
(** * Response validation *)
(* ================================================================== *)

Section Validation.
Import Py OmronV3.
Implicit Types response cleaned body rest : str.

(** The same function in both scripts. *)
Lemma validate_and_clean_response_v2 :
  Omron_TestScript_v2.validate_and_clean_response = validate_and_clean_response.
Proof. reflexivity. Qed.

Lemma validate_no_STX response :
  hd_error response <> Some STX_chr ->
  validate_and_clean_response response = Raise MissingSTX.
Proof.
  intros Hhd. destruct response as [| c t]; [reflexivity |].
  unfold validate_and_clean_response.
  destruct (Ascii.eqb c "002") eqn:E; [| reflexivity].
  apply Ascii.eqb_eq in E. subst c. now elim Hhd.
Qed.

Lemma validate_no_ETX response :
  hd_error response = Some STX_chr -> ~ In ETX_chr response ->
  validate_and_clean_response response = Raise MissingETX.
Proof.
  intros Hhd Hno. destruct response as [| c t]; [discriminate |].
  injection Hhd as ->.
  apply contains_false in Hno.
  unfold validate_and_clean_response.
  change (Ascii.eqb STX_chr "002") with true. cbn [negb].
  unfold ETX_chr in Hno. now rewrite Hno.
Qed.

(** A frame that starts with STX is cut after its first ETX. *)
Lemma validate_framed body rest :
  ~ In ETX_chr body ->
  validate_and_clean_response (STX_chr :: body ++ ETX_chr :: rest)
  = Ok (STX_chr :: body ++ [ETX_chr]).
Proof.
  intros Hbody. unfold validate_and_clean_response.
  change (Ascii.eqb STX_chr "002") with true. cbn [negb].
  assert (Hc : contains "003" (STX_chr :: body ++ ETX_chr :: rest) = true).
  { apply contains_In. right. apply in_elt. }
  rewrite Hc. cbn [negb].
  assert (Hpre : ~ In ETX_chr (STX_chr :: body)).
  { intros [H | H]; [discriminate | auto]. }
  change (STX_chr :: body ++ ETX_chr :: rest)
    with ((STX_chr :: body) ++ ETX_chr :: rest).
  change "003"%char with ETX_chr.
  rewrite index_first by assumption. cbn [bind].
  rewrite slice_upto.
  - replace (Z.to_nat (len (STX_chr :: body) + 1))
      with (List.length (STX_chr :: body) + 1)%nat by (unfold len; lia).
    rewrite firstn_app_2. reflexivity.
  - pose proof (len_nonneg (STX_chr :: body)).
    rewrite len_app, (len_cons ETX_chr). pose proof (len_nonneg rest). lia.
Qed.

(** What a successful validation says about its argument. *)
Lemma validate_Ok_inv response cleaned :
  validate_and_clean_response response = Ok cleaned ->
  exists body rest,
    response = STX_chr :: body ++ ETX_chr :: rest /\
    ~ In ETX_chr body /\
    cleaned = STX_chr :: body ++ [ETX_chr].
Proof.
  intros Hok.
  destruct (hd_is_STX_dec (hd_error response)) as [Hhd | Hhd].
  2:{ rewrite validate_no_STX in Hok by assumption. discriminate. }
  destruct (in_dec ascii_dec ETX_chr response) as [Hin | Hno].
  2:{ rewrite validate_no_ETX in Hok by assumption. discriminate. }
  destruct (framed_split _ Hhd Hin) as (body & rest & -> & Hbody).
  rewrite validate_framed in Hok by assumption.
  injection Hok as <-. now exists body, rest.
Qed.

End Validation.

(* ================================================================== *)
(** * Data-section extraction *)
(* ================================================================== *)

Section Extraction.
Import Py OmronV3.
Implicit Types response body : str.

Lemma extract_data_section_v2 :
  Omron_TestScript_v2.extract_data_section = extract_data_section.
Proof. reflexivity. Qed.

(** On a delimited frame the body is what lies between the delimiters. *)
Lemma extract_framed (a b : ascii) body :
  extract_data_section (a :: body ++ [b])
  = if len body <? 16 then Raise FrameTooShort else Ok (skipn 13 body).
Proof.
  unfold extract_data_section. rewrite slice_strip_ends.
  destruct (len body <? 16); [reflexivity |].
  now rewrite slice_from by lia.
Qed.

End Extraction.

(* ================================================================== *)
(** * The block check character *)
(* ================================================================== *)

Section BlockCheck.
Import Py OmronV3.

Lemma lxor_is_byte a b : is_byte a -> is_byte b -> is_byte (Z.lxor a b).
Proof.
  unfold is_byte. intros Ha Hb.
  assert (Hnn : 0 <= Z.lxor a b) by (apply Z.lxor_nonneg; lia).
  split; [assumption |].
  destruct (Z.eq_dec (Z.lxor a b) 0) as [-> | Hne]; [lia |].
  change 256 with (2 ^ 8). apply Z.log2_lt_pow2; [lia |].
  pose proof (Z.log2_lxor a b ltac:(lia) ltac:(lia)) as Hlog.
  assert (Hla : Z.log2 a < 8).
  { destruct (Z.eq_dec a 0) as [-> | ?]; [reflexivity |].
    apply Z.log2_lt_pow2; [lia |]. change (2 ^ 8) with 256. lia. }
  assert (Hlb : Z.log2 b < 8).
  { destruct (Z.eq_dec b 0) as [-> | ?]; [reflexivity |].
    apply Z.log2_lt_pow2; [lia |]. change (2 ^ 8) with 256. lia. }
  lia.
Qed.

(** One more iteration of the loop of [calculate_bcc]. *)
Lemma calculate_bcc_snoc data x :
  calculate_bcc (data ++ [x]) = Z.lxor (calculate_bcc data) x.
Proof. unfold calculate_bcc. now rewrite fold_left_app. Qed.

(** The order of the bytes does not matter to the loop: it computes the
    XOR of them all. *)
Lemma calculate_bcc_xor_all data :
  calculate_bcc data = fold_right Z.lxor 0 data.
Proof.
  unfold calculate_bcc. apply fold_symmetric.
  - intros x y z. symmetry. apply Z.lxor_assoc.
  - intros y. apply Z.lxor_comm.
Qed.

(** Bit [n] of the BCC is the parity of bit [n] over the bytes. *)
Lemma calculate_bcc_testbit data n :
  Z.testbit (calculate_bcc data) n
  = fold_right xorb false (map (fun byte => Z.testbit byte n) data).
Proof.
  rewrite calculate_bcc_xor_all.
  induction data as [| x data IH]; [apply Z.testbit_0_l |].
  cbn [fold_right map]. now rewrite Z.lxor_spec, IH.
Qed.

Lemma fold_lxor_is_byte data : forall bcc,
  is_byte bcc -> Forall is_byte data ->
  is_byte (fold_left (fun bcc byte => Z.lxor bcc byte) data bcc).
Proof.
  induction data as [| x data IH]; intros bcc Hb Hd; [assumption |].
  inversion Hd; subst. cbn [fold_left]. apply IH; [| assumption].
  now apply lxor_is_byte.
Qed.

Lemma calculate_bcc_is_byte data :
  Forall is_byte data -> is_byte (calculate_bcc data).
Proof. intros H. apply fold_lxor_is_byte; [unfold is_byte; lia | assumption]. Qed.

Lemma ord_nonneg c : 0 <= ord c.
Proof. unfold ord. lia. Qed.

(** ASCII text encodes to the codes of its characters. *)
Lemma encode_ascii_Ok (s : str) :
  Forall (fun c => ord c < 128) s -> encode_ascii s = Ok (map ord s).
Proof.
  induction 1 as [| c s Hc Hs IH]; [reflexivity |].
  cbn [encode_ascii map].
  destruct (ord c <? 128) eqn:E; [| apply Z.ltb_ge in E; lia].
  now rewrite IH.
Qed.

Lemma encoded_bytes (s : str) :
  Forall (fun c => ord c < 128) s -> Forall is_byte (map ord s).
Proof.
  intros H. apply Forall_map. eapply Forall_impl; [| exact H].
  intros c Hc. cbn beta in Hc. pose proof (ord_nonneg c). unfold is_byte. lia.
Qed.

Lemma bytearray_append_Ok frame x :
  is_byte x -> bytearray_append frame x = Ok (frame ++ [x]).
Proof.
  unfold is_byte, bytearray_append. intros [H0 H1].
  apply Z.leb_le in H0. apply Z.ltb_lt in H1. now rewrite H0, H1.
Qed.

End BlockCheck.

(* ================================================================== *)
(** * Signed decoding and scaling *)
(* ================================================================== *)

Section Decoding.
Import Py.
Implicit Types hex_value data_section : str.


Lemma decode_signed_value_16 hex_value v :
  int_base16 hex_value = Ok v ->
  OmronV3.decode_signed_value hex_value 16
  = Ok (if 32768 <=? v then v - 65536 else v).
Proof.
  intros Hv. unfold OmronV3.decode_signed_value. rewrite Hv. cbn [bind].
  change (2 ^ (16 - 1)) with 32768. change (2 ^ 16) with 65536.
  rewrite Z.geb_leb. now destruct (32768 <=? v).
Qed.

Lemma display_value_v3 data_section v :
  int_base16 data_section = Ok v ->
  OmronV3.display_value data_section
  = Ok (truediv (if 32768 <=? v then v - 65536 else v) 10).
Proof.
  intros Hv. unfold OmronV3.display_value.
  now rewrite (decode_signed_value_16 _ _ Hv).
Qed.

Lemma display_value_v2 data_section v :
  int_base16 data_section = Ok v ->
  Omron_TestScript_v2.display_value data_section = Ok (truediv v 10).
Proof.
  intros Hv. unfold Omron_TestScript_v2.display_value. now rewrite Hv.
Qed.

(** The value a run of the [try] block yields is [display_value] of the
    data section. *)
Lemma process_response_display raw_response cleaned_response data_section :
  OmronV3.validate_and_clean_response raw_response = Ok cleaned_response ->
  OmronV3.extract_data_section cleaned_response = Ok data_section ->
  snd (OmronV3.process_response raw_response)
  = OmronV3.display_value data_section /\
  snd (Omron_TestScript_v2.process_response raw_response)
  = Omron_TestScript_v2.display_value data_section.
Proof.
  intros Hval Hext.
  unfold OmronV3.process_response, Omron_TestScript_v2.process_response,
    OmronV3.display_value, Omron_TestScript_v2.display_value.
  change Omron_TestScript_v2.validate_and_clean_response
    with OmronV3.validate_and_clean_response.
  change Omron_TestScript_v2.extract_data_section
    with OmronV3.extract_data_section.
  rewrite Hval. cbn [invoke]. rewrite Hext. cbn [invoke].
  split.
  - now destruct (OmronV3.decode_signed_value data_section 16).
  - now destruct (int_base16 data_section).
Qed.





End Decoding.

(* ================================================================== *)
(** * The model on concrete inputs *)
(* ================================================================== *)

Section Examples.
Import Py.

(** [int(_, 16)] on texts it accepts: signs, prefixes, inner underscores
    and surrounding white space. *)
Example int_base16_accepts :
  map (fun text => int_base16 (lit text))
    ["FFF6"; "0002"; " 1F"; "-1F"; "+1F"; "0x1F"; "0X1f"; "-0x1F";
     "0x_1F"; "1_F"; "ff"; "0b1"; "0_0"; "1F  "; "-0"]%string
  = map Ok [65526; 2; 31; -31; 31; 31; 31; -31; 31; 31; 255; 177; 0; 31; 0].
Proof. reflexivity. Qed.

(** ... and on texts it refuses. *)
Example int_base16_refuses :
  forallb (fun text =>
             match int_base16 (lit text) with
             | Raise (ValueError_invalid_literal 16 _) => true
             | _ => false
             end)
    ["  "; "+"; "- 1F"; "0x"; "_1F"; "1__F"; "1F_"; "0x-1"; "x1";
     "0_x1F"; "00x1F"; "0x+1"; "++1"; "0o7"; "0x 1"; "1 F"; "g"; "0x__1";
     "0x_"; "0_"]%string
  = true /\
  int_base16 [] = Raise (ValueError_invalid_literal 16 []).
Proof. split; reflexivity. Qed.

(** Slices: [l[1:-1]], [l[:2]] and [l[13:]]. *)
Example slice_examples :
  slice [1; 2; 3] (Some 1) (Some (-1)) = [2] /\
  slice [1; 2] (Some 1) (Some (-1)) = [] /\
  slice [1] (Some 1) (Some (-1)) = [] /\
  slice [1; 2; 3; 4] None (Some 2) = [1; 2] /\
  slice [1; 2; 3; 4] (Some 13) None = [].
Proof. repeat split. Qed.

(** A run of the [try] block in each script on a reading of -1.0: the
    frame is cut after its ETX, the data section is "FFF6". *)
Example process_response_FFF6 :
  let raw := STX_chr :: lit "0100000000000FFF6" ++ ETX_chr :: lit "A" in
  let cleaned := STX_chr :: lit "0100000000000FFF6" ++ [ETX_chr] in
  OmronV3.process_response raw
  = ([Call_validate_and_clean_response raw;
      Call_extract_data_section cleaned;
      Call_decode_signed_value (lit "FFF6")], Ok (truediv (-10) 10)) /\
  Omron_TestScript_v2.process_response raw
  = ([Call_validate_and_clean_response raw;
      Call_extract_data_section cleaned;
      Call_int (lit "FFF6")], Ok (truediv 65526 10)).
Proof. split; reflexivity. Qed.

End Examples.

(* ================================================================== *)
(** * The request frame *)
(* ================================================================== *)

Import Py.

(** C1.  For every ASCII command text, the frame the main loop builds is
    STX, the bytes of the command text, ETX and the BCC, where the BCC is
    [calculate_bcc] of the bytes after STX up to and including ETX (their
    running XOR); hence the XOR over everything after STX, BCC included, is
    0.  Both scripts build the same frame.  The command text need not be
    free of STX and ETX characters for this. *)
Theorem build_frame_bcc (command_text : str) :
  Forall (fun c => ord c < 128) command_text ->
  let data := map ord command_text in
  let bcc := OmronV3.calculate_bcc (data ++ [OmronV3.ETX]) in
  encode_ascii command_text = Ok data /\
  OmronV3.build_frame command_text
  = Ok (OmronV3.STX :: data ++ [OmronV3.ETX; bcc]) /\
  Omron_TestScript_v2.build_frame command_text
  = OmronV3.build_frame command_text /\
  bcc = fold_right Z.lxor 0 (data ++ [OmronV3.ETX]) /\
  OmronV3.calculate_bcc (data ++ [OmronV3.ETX; bcc]) = 0.
Proof.
  intros Hascii data bcc.
  assert (Henc : encode_ascii command_text = Ok data)
    by now apply encode_ascii_Ok.
  assert (Hdata : Forall is_byte (data ++ [OmronV3.ETX])).
  { apply Forall_app. split; [now apply encoded_bytes |].
    constructor; [unfold is_byte, OmronV3.ETX; lia | constructor]. }
  assert (Hbcc : is_byte bcc) by now apply calculate_bcc_is_byte.
  split; [exact Henc |]. split; [| split; [reflexivity |]].
  2: split; [apply calculate_bcc_xor_all |].
  - unfold OmronV3.build_frame.
    change (bytearray_append [] OmronV3.STX) with (Ok [OmronV3.STX]).
    cbn [bind]. rewrite Henc. cbn [bind].
    rewrite bytearray_append_Ok by (unfold is_byte, OmronV3.ETX; lia).
    cbn [bind]. rewrite slice_from by lia.
    change (skipn (Z.to_nat 1) (([OmronV3.STX] ++ data) ++ [OmronV3.ETX]))
      with (data ++ [OmronV3.ETX]).
    fold bcc. rewrite bytearray_append_Ok by assumption. cbn [bind].
    f_equal. cbn [app]. f_equal. now rewrite <- app_assoc.
  - change (data ++ [OmronV3.ETX; bcc]) with (data ++ [OmronV3.ETX] ++ [bcc]).
    rewrite app_assoc, calculate_bcc_snoc. fold bcc. apply Z.lxor_nilpotent.
Qed.

(** The frame of the fixed monitor-read command, byte for byte. *)
Lemma build_frame_bcc_witness :
  Forall (fun c => ord c < 128) OmronV3.data_ascii /\
  OmronV3.frame
  = Ok [2; 48; 49; 48; 48; 48; 48; 49; 48; 49; 67; 48; 48; 48; 48; 50; 48;
        48; 48; 48; 48; 49; 3; 66] /\
  OmronV3.calculate_bcc
    [48; 49; 48; 48; 48; 48; 49; 48; 49; 67; 48; 48; 48; 48; 50; 48;
     48; 48; 48; 48; 49; 3; 66] = 0.
Proof.
  assert (H : Forall (fun c => ord c < 128) OmronV3.data_ascii)
    by (repeat constructor).
  destruct (build_frame_bcc OmronV3.data_ascii H)
    as (_ & Hframe & _ & _ & Hzero).
  split; [exact H | split; [exact Hframe | exact Hzero]].
Defined.

(** C9 as stated fails: the command text of the scripts is not 19
    characters long. *)
Lemma command_text_is_not_19_long :
  List.length OmronV3.data_ascii = 21%nat /\
  List.length OmronV3.data_ascii <> 19%nat.
Proof. split; [reflexivity | discriminate]. Qed.

(** C9, amended.  The command text of every request frame, Node +
    SubAddress + ServiceID + MRC + SRC + VariableType + Address +
    BitPosition + ElementCount with the constants of the scripts, is
    exactly 21 ASCII characters long (field widths 2, 2, 1, 2, 2, 2, 4, 2
    and 4), in both scripts. *)
Theorem data_ascii_length :
  OmronV3.data_ascii = lit "010000101C00002000001" /\
  Omron_TestScript_v2.data_ascii = OmronV3.data_ascii /\
  List.length OmronV3.data_ascii = 21%nat /\
  map (@List.length ascii)
    [OmronV3.Node; OmronV3.SubAddress; OmronV3.ServiceID; OmronV3.MRC;
     OmronV3.SRC; OmronV3.Variable_Type; OmronV3.Address;
     OmronV3.Bit_Position; OmronV3.Number_of_Elements]
  = [2; 2; 1; 2; 2; 2; 4; 2; 4]%nat /\
  forallb (fun c => ord c <? 128) OmronV3.data_ascii = true.
Proof. repeat split. Qed.

(* ================================================================== *)
(** * Validation of a response *)
(* ================================================================== *)

(** C4 as stated fails: the validated frame still carries its STX and its
    ETX; it is not the text between them. *)
Lemma validate_and_clean_response_not_body :
  let raw := STX_chr :: lit "AB" ++ ETX_chr :: lit "C" in
  hd_error raw = Some STX_chr /\
  In ETX_chr raw /\
  OmronV3.validate_and_clean_response raw
  = Ok (STX_chr :: lit "AB" ++ [ETX_chr]) /\
  STX_chr :: lit "AB" ++ [ETX_chr] <> lit "AB".
Proof.
  cbv zeta. split; [reflexivity |]. split; [cbn; tauto |].
  split; [reflexivity | discriminate].
Qed.

(** C4, amended.  For every response that starts with STX and holds an
    ETX, [validate_and_clean_response] cuts the response after its first
    ETX, dropping all that follows, and returns the frame from the leading
    STX to that ETX, both included; the text between the two is what
    [response[1:-1]] then takes out of the result. *)
Theorem validate_and_clean_response_truncates (response : str) :
  hd_error response = Some STX_chr ->
  In ETX_chr response ->
  exists body rest,
    response = STX_chr :: body ++ ETX_chr :: rest /\
    ~ In ETX_chr body /\
    OmronV3.validate_and_clean_response response
    = Ok (STX_chr :: body ++ [ETX_chr]) /\
    slice (STX_chr :: body ++ [ETX_chr]) (Some 1) (Some (-1)) = body.
Proof.
  intros Hhd Hin.
  destruct (framed_split _ Hhd Hin) as (body & rest & -> & Hbody).
  exists body, rest. split; [reflexivity |]. split; [assumption |].
  split; [now apply validate_framed | apply slice_strip_ends].
Qed.

Lemma validate_and_clean_response_truncates_witness :
  exists body rest,
    STX_chr :: lit "0100" ++ ETX_chr :: lit "B" ++ ETX_chr :: lit "x"
    = STX_chr :: body ++ ETX_chr :: rest /\
    ~ In ETX_chr body /\
    OmronV3.validate_and_clean_response
      (STX_chr :: lit "0100" ++ ETX_chr :: lit "B" ++ ETX_chr :: lit "x")
    = Ok (STX_chr :: body ++ [ETX_chr]) /\
    slice (STX_chr :: body ++ [ETX_chr]) (Some 1) (Some (-1)) = body.
Proof.
  apply (validate_and_clean_response_truncates
           (STX_chr :: lit "0100" ++ ETX_chr :: lit "B" ++ ETX_chr :: lit "x")).
  - reflexivity.
  - cbn. tauto.
Defined.

(** C5.  A response whose first character is not STX, the empty response
    included, is refused with the missing-STX error; one that starts with
    STX and holds no ETX is refused with the missing-ETX error; every other
    response is accepted.  The same holds in both scripts. *)
Theorem validate_and_clean_response_outcomes (response : str) :
  (hd_error response <> Some STX_chr ->
   OmronV3.validate_and_clean_response response = Raise MissingSTX) /\
  (hd_error response = Some STX_chr -> ~ In ETX_chr response ->
   OmronV3.validate_and_clean_response response = Raise MissingETX) /\
  (hd_error response = Some STX_chr -> In ETX_chr response ->
   exists cleaned, OmronV3.validate_and_clean_response response = Ok cleaned) /\
  Omron_TestScript_v2.validate_and_clean_response response
  = OmronV3.validate_and_clean_response response.
Proof.
  split; [apply validate_no_STX |]. split; [apply validate_no_ETX |].
  split; [| reflexivity].
  intros Hhd Hin.
  destruct (framed_split _ Hhd Hin) as (body & rest & -> & Hbody).
  exists (STX_chr :: body ++ [ETX_chr]). now apply validate_framed.
Qed.

Lemma validate_and_clean_response_outcomes_witness :
  OmronV3.validate_and_clean_response [] = Raise MissingSTX /\
  OmronV3.validate_and_clean_response (lit "0100" ++ [ETX_chr])
  = Raise MissingSTX /\
  OmronV3.validate_and_clean_response (STX_chr :: lit "0100")
  = Raise MissingETX /\
  exists cleaned,
    OmronV3.validate_and_clean_response (STX_chr :: lit "0100" ++ [ETX_chr])
    = Ok cleaned.
Proof.
  split; [| split; [| split]].
  - apply (proj1 (validate_and_clean_response_outcomes [])). discriminate.
  - apply (proj1 (validate_and_clean_response_outcomes
                    (lit "0100" ++ [ETX_chr]))). discriminate.
  - apply (proj1 (proj2 (validate_and_clean_response_outcomes
                           (STX_chr :: lit "0100")))).
    + reflexivity.
    + cbn. intuition discriminate.
  - apply (proj1 (proj2 (proj2 (validate_and_clean_response_outcomes
                                  (STX_chr :: lit "0100" ++ [ETX_chr]))))).
    + reflexivity.
    + cbn. tauto.
Defined.

(** C8.  [validate_and_clean_response] is idempotent on its own output:
    whenever it accepts a response, it accepts its result as well and
    returns it unchanged. *)
Theorem validate_and_clean_response_idempotent (response cleaned : str) :
  OmronV3.validate_and_clean_response response = Ok cleaned ->
  OmronV3.validate_and_clean_response cleaned = Ok cleaned.
Proof.
  intros Hok.
  destruct (validate_Ok_inv _ _ Hok) as (body & rest & _ & Hbody & ->).
  now apply (validate_framed body []).
Qed.

Lemma validate_and_clean_response_idempotent_witness :
  OmronV3.validate_and_clean_response
    (STX_chr :: lit "0100" ++ ETX_chr :: lit "B")
  = Ok (STX_chr :: lit "0100" ++ [ETX_chr]) /\
  OmronV3.validate_and_clean_response (STX_chr :: lit "0100" ++ [ETX_chr])
  = Ok (STX_chr :: lit "0100" ++ [ETX_chr]).
Proof.
  split; [reflexivity |].
  apply (validate_and_clean_response_idempotent
           (STX_chr :: lit "0100" ++ ETX_chr :: lit "B")).
  reflexivity.
Defined.

(* ================================================================== *)
(** * Extraction of the data section *)
(* ================================================================== *)

(** C7.  Whenever the frame body, [response[1:-1]], is at least 16
    characters long, [extract_data_section] returns the body from offset 13
    to its end: the body is its first 13 characters followed by the
    result.  On a delimited frame the body is the text between the
    delimiters.  The same holds in both scripts. *)
Theorem extract_data_section_from_offset_13 (response : str) :
  let frame_body := slice response (Some 1) (Some (-1)) in
  16 <= len frame_body ->
  OmronV3.extract_data_section response = Ok (skipn 13 frame_body) /\
  Omron_TestScript_v2.extract_data_section response
  = Ok (skipn 13 frame_body) /\
  (exists header, List.length header = 13%nat /\
                  frame_body = header ++ skipn 13 frame_body) /\
  (forall a b body, response = a :: body ++ [b] -> frame_body = body).
Proof.
  intros frame_body Hlen.
  assert (Hex : OmronV3.extract_data_section response
                = Ok (skipn 13 frame_body)).
  { unfold OmronV3.extract_data_section. fold frame_body.
    destruct (len frame_body <? 16) eqn:E; [apply Z.ltb_lt in E; lia |].
    now rewrite slice_from by lia. }
  split; [exact Hex |]. split; [exact Hex |]. split.
  - exists (firstn 13 frame_body). split.
    + rewrite length_firstn. unfold len in Hlen. lia.
    + symmetry. apply firstn_skipn.
  - intros a b body ->. apply slice_strip_ends.
Qed.

Lemma extract_data_section_from_offset_13_witness :
  OmronV3.extract_data_section
    (STX_chr :: lit "0100000000000FFF6" ++ [ETX_chr])
  = Ok (lit "FFF6").
Proof.
  apply (extract_data_section_from_offset_13
           (STX_chr :: lit "0100000000000FFF6" ++ [ETX_chr])).
  vm_compute. discriminate.
Defined.

(** C6.  A response whose text between STX and the first ETX is shorter
    than 16 characters makes the [try] block of the main loop fail with
    the frame-too-short error, raised by [extract_data_section]; the run
    consists of the calls to [validate_and_clean_response] and
    [extract_data_section] only, so no hexadecimal parsing is attempted.
    The same holds in both scripts. *)
Theorem short_frame_is_not_parsed (body rest : str) :
  ~ In ETX_chr body ->
  len body < 16 ->
  let raw_response := STX_chr :: body ++ ETX_chr :: rest in
  let cleaned_response := STX_chr :: body ++ [ETX_chr] in
  OmronV3.extract_data_section cleaned_response = Raise FrameTooShort /\
  OmronV3.process_response raw_response
  = ([Call_validate_and_clean_response raw_response;
      Call_extract_data_section cleaned_response],
     Raise FrameTooShort) /\
  attempts_hex_parsing (OmronV3.process_response raw_response) = false /\
  Omron_TestScript_v2.process_response raw_response
  = ([Call_validate_and_clean_response raw_response;
      Call_extract_data_section cleaned_response],
     Raise FrameTooShort) /\
  attempts_hex_parsing (Omron_TestScript_v2.process_response raw_response)
  = false.
Proof.
  intros Hbody Hshort raw_response cleaned_response.
  assert (Hval : OmronV3.validate_and_clean_response raw_response
                 = Ok cleaned_response) by now apply validate_framed.
  assert (Hext : OmronV3.extract_data_section cleaned_response
                 = Raise FrameTooShort).
  { unfold cleaned_response. rewrite extract_framed.
    destruct (len body <? 16) eqn:E; [reflexivity | apply Z.ltb_ge in E; lia]. }
  assert (H3 : OmronV3.process_response raw_response
               = ([Call_validate_and_clean_response raw_response;
                   Call_extract_data_section cleaned_response],
                  Raise FrameTooShort)).
  { unfold OmronV3.process_response. rewrite Hval. cbn [invoke].
    now rewrite Hext. }
  assert (H2 : Omron_TestScript_v2.process_response raw_response
               = ([Call_validate_and_clean_response raw_response;
                   Call_extract_data_section cleaned_response],
                  Raise FrameTooShort)).
  { unfold Omron_TestScript_v2.process_response.
    rewrite validate_and_clean_response_v2, extract_data_section_v2.
    rewrite Hval. cbn [invoke]. now rewrite Hext. }
  split; [exact Hext |]. split; [exact H3 |]. split; [now rewrite H3 |].
  split; [exact H2 | now rewrite H2].
Qed.

Lemma short_frame_is_not_parsed_witness :
  OmronV3.process_response (STX_chr :: lit "0100000" ++ ETX_chr :: lit "A")
  = ([Call_validate_and_clean_response
        (STX_chr :: lit "0100000" ++ ETX_chr :: lit "A");
      Call_extract_data_section (STX_chr :: lit "0100000" ++ [ETX_chr])],
     Raise FrameTooShort).
Proof.
  apply (short_frame_is_not_parsed (lit "0100000") (lit "A")).
  - cbn. intuition discriminate.
  - reflexivity.
Defined.

(* ================================================================== *)
(** * Decoding and scaling of the reading *)
(* ================================================================== *)





(** C10.  [decode_signed_value] does not confine its result to the signed
    16-bit range.  It subtracts [2^16] at most once, so a data section of
    more than 4 digits can decode to a value above 32767: "1FFFF" parses to
    131071 and decodes to 65535, and so does every data section that
    parses to [2^15 + 2^16] or more. *)
Theorem decode_signed_value_is_not_confined :
  (4 < len (lit "1FFFF") /\
   int_base16 (lit "1FFFF") = Ok 131071 /\
   OmronV3.decode_signed_value (lit "1FFFF") 16 = Ok 65535 /\
   32767 < 65535) /\
  (forall hex_value v,
      int_base16 hex_value = Ok v ->
      exists r, OmronV3.decode_signed_value hex_value 16 = Ok r /\
                (r = v \/ r = v - 2 ^ 16) /\
                (2 ^ 15 + 2 ^ 16 <= v -> 32767 < r)).
Proof.
  split.
  - repeat split.
  - intros hex_value v Hv.
    exists (if 32768 <=? v then v - 65536 else v).
    split; [now apply decode_signed_value_16 |].
    change (2 ^ 15) with 32768. change (2 ^ 16) with 65536.
    destruct (32768 <=? v) eqn:E.
    + apply Z.leb_le in E. split; [now right | intros; lia].
    + apply Z.leb_gt in E. split; [now left | intros; lia].
Qed.

Lemma decode_signed_value_is_not_confined_witness :
  exists r, OmronV3.decode_signed_value (lit "2ABCD") 16 = Ok r /\
            (r = 175053 \/ r = 175053 - 2 ^ 16) /\
            (2 ^ 15 + 2 ^ 16 <= 175053 -> 32767 < r).
Proof.
  apply (proj2 decode_signed_value_is_not_confined (lit "2ABCD") 175053).
  reflexivity.
Defined.

(* ================================================================== *)
(** * More on the block check character *)
(* ================================================================== *)

Section BccAlgebra.
Import OmronV3.

Lemma xor_all_app (a b : list Z) :
  fold_right Z.lxor 0 (a ++ b)
  = Z.lxor (fold_right Z.lxor 0 a) (fold_right Z.lxor 0 b).
Proof.
  induction a as [| x a IH]; cbn [app fold_right].
  - now rewrite Z.lxor_0_l.
  - now rewrite IH, Z.lxor_assoc.
Qed.

Lemma lxor_cancel_l (a x y : Z) : Z.lxor a x = Z.lxor a y -> x = y.
Proof.
  intros H. apply (f_equal (Z.lxor a)) in H.
  now rewrite <- !Z.lxor_assoc, Z.lxor_nilpotent, !Z.lxor_0_l in H.
Qed.

Lemma lxor_cancel_r (a x y : Z) : Z.lxor x a = Z.lxor y a -> x = y.
Proof. rewrite !(Z.lxor_comm _ a). apply lxor_cancel_l. Qed.

(** XOR keeps values within [k] bits. *)
Lemma lxor_lt_pow2 (k a b : Z) :
  0 <= a < 2 ^ k -> 0 <= b < 2 ^ k -> 0 <= Z.lxor a b < 2 ^ k.
Proof.
  intros Ha Hb.
  assert (Hnn : 0 <= Z.lxor a b) by (apply Z.lxor_nonneg; lia).
  split; [assumption |].
  destruct (Z.eq_dec (Z.lxor a b) 0) as [-> | Hne]; [lia |].
  apply Z.log2_lt_pow2; [lia |].
  pose proof (Z.log2_lxor a b ltac:(lia) ltac:(lia)) as Hlog.
  assert (Hla : a = 0 \/ Z.log2 a < k).
  { destruct (Z.eq_dec a 0); [now left | right].
    apply Z.log2_lt_pow2; lia. }
  assert (Hlb : b = 0 \/ Z.log2 b < k).
  { destruct (Z.eq_dec b 0); [now left | right].
    apply Z.log2_lt_pow2; lia. }
  destruct Hla as [-> | Hla], Hlb as [-> | Hlb].
  - now rewrite Z.lxor_0_l in Hne.
  - rewrite Z.lxor_0_l in *. lia.
  - rewrite Z.lxor_0_r in *. lia.
  - lia.
Qed.

Lemma xor_all_lt_pow2 (k : Z) (data : list Z) :
  0 <= k ->
  Forall (fun byte => 0 <= byte < 2 ^ k) data ->
  0 <= fold_right Z.lxor 0 data < 2 ^ k.
Proof.
  intros Hk. induction 1 as [| x data Hx Hdata IH]; cbn [fold_right].
  - split; [lia | apply Z.pow_pos_nonneg; lia].
  - now apply lxor_lt_pow2.
Qed.

End BccAlgebra.

(** X1.  The BCC of a concatenation is the XOR of the BCCs of the parts:
    a frame can be checked piece by piece. *)
Theorem calculate_bcc_concatenation (a b : list Z) :
  OmronV3.calculate_bcc (a ++ b)
  = Z.lxor (OmronV3.calculate_bcc a) (OmronV3.calculate_bcc b).
Proof. rewrite !calculate_bcc_xor_all. apply xor_all_app. Qed.

(** X2.  [calculate_bcc] stays within the width of its input: over values
    of [k] bits the BCC has [k] bits.  Over bytes it is a byte, so
    appending it to the frame cannot fail, and over 7-bit codes it is a
    7-bit code. *)
Theorem calculate_bcc_width (k : Z) (data : list Z) :
  0 <= k ->
  Forall (fun byte => 0 <= byte < 2 ^ k) data ->
  0 <= OmronV3.calculate_bcc data < 2 ^ k.
Proof.
  intros Hk Hdata. rewrite calculate_bcc_xor_all.
  now apply xor_all_lt_pow2.
Qed.

Lemma calculate_bcc_width_witness :
  0 <= OmronV3.calculate_bcc [48; 49; 67; 3] < 2 ^ 7.
Proof.
  apply (calculate_bcc_width 7 [48; 49; 67; 3]).
  - lia.
  - repeat constructor; lia.
Defined.

(** X3.  Changing one byte always changes the BCC: two sequences that
    differ in exactly one position have the same BCC only if the bytes at
    that position are equal. *)
Theorem calculate_bcc_single_byte (pre post : list Z) (x y : Z) :
  OmronV3.calculate_bcc (pre ++ x :: post)
  = OmronV3.calculate_bcc (pre ++ y :: post)
  <-> x = y.
Proof.
  split; [| now intros ->].
  rewrite !calculate_bcc_xor_all, !xor_all_app. cbn [fold_right].
  intros H. apply lxor_cancel_l in H. now apply lxor_cancel_r in H.
Qed.

(** X4.  The BCC does not see the order of the bytes: any rearrangement
    of a sequence has the same BCC. *)
Theorem calculate_bcc_permutation (a b : list Z) :
  Permutation a b -> OmronV3.calculate_bcc a = OmronV3.calculate_bcc b.
Proof.
  rewrite !calculate_bcc_xor_all.
  induction 1 as [| x a b _ IH | x y a | a b c _ IH1 _ IH2]; cbn [fold_right].
  - reflexivity.
  - now rewrite IH.
  - now rewrite <- !Z.lxor_assoc, (Z.lxor_comm y x).
  - now rewrite IH1.
Qed.

Lemma calculate_bcc_permutation_witness :
  OmronV3.calculate_bcc [48; 49; 67; 3] = OmronV3.calculate_bcc [49; 48; 67; 3].
Proof.
  apply (calculate_bcc_permutation [48; 49; 67; 3] [49; 48; 67; 3]).
  apply perm_swap.
Defined.

(** X5.  Bit [n] of the BCC is set exactly when an odd number of the bytes
    have bit [n] set. *)
Theorem calculate_bcc_bit_parity (data : list Z) (n : Z) :
  Z.testbit (OmronV3.calculate_bcc data) n
  = Nat.odd (List.length (filter (fun byte => Z.testbit byte n) data)).
Proof.
  rewrite calculate_bcc_xor_all.
  induction data as [| x data IH]; [apply Z.testbit_0_l |].
  cbn [fold_right filter]. rewrite Z.lxor_spec, IH.
  destruct (Z.testbit x n); cbn [xorb List.length].
  - rewrite Nat.odd_succ, <- Nat.negb_odd. now destruct (Nat.odd _).
  - now destruct (Nat.odd _).
Qed.

(* ================================================================== *)
(** * Bytes on the wire: encoding, decoding and the frame *)
(* ================================================================== *)

Section WireBytes.
Import OmronV3.

Lemma chr_ord (c : ascii) : chr (ord c) = c.
Proof. unfold chr, ord. rewrite Nat2Z.id. apply ascii_nat_embedding. Qed.

Lemma ord_chr (b : Z) : is_byte b -> ord (chr b) = b.
Proof.
  unfold is_byte, chr, ord. intros Hb.
  rewrite nat_ascii_embedding by lia. lia.
Qed.

Lemma decode_ascii_ignore_app (a b : list Z) :
  decode_ascii_ignore (a ++ b) = decode_ascii_ignore a ++ decode_ascii_ignore b.
Proof. unfold decode_ascii_ignore. now rewrite filter_app, map_app. Qed.

Lemma decode_ascii_ignore_codes (s : str) :
  Forall is_ascii s -> decode_ascii_ignore (map ord s) = s.
Proof.
  unfold decode_ascii_ignore.
  induction 1 as [| c s Hc Hs IH]; [reflexivity |].
  cbn [map filter]. unfold is_ascii in Hc. apply Z.ltb_lt in Hc. rewrite Hc.
  cbn [map]. now rewrite chr_ord, IH.
Qed.

Lemma decode_ascii_ignore_high (noise : list Z) :
  Forall (fun x => 128 <= x) noise -> decode_ascii_ignore noise = [].
Proof.
  unfold decode_ascii_ignore.
  induction 1 as [| x noise Hx Hn IH]; [reflexivity |].
  cbn [filter]. apply Z.ltb_ge in Hx. now rewrite Hx.
Qed.

(** One character outside ASCII makes the encoding fail. *)
Lemma encode_ascii_Raise (s : str) :
  Exists (fun c => 128 <= ord c) s -> encode_ascii s = Raise UnicodeEncodeError.
Proof.
  induction 1 as [c s Hc | c s Hs IH]; cbn [encode_ascii].
  - apply Z.ltb_ge in Hc. now rewrite Hc.
  - rewrite IH. now destruct (ord c <? 128).
Qed.

(** The frame of an ASCII command text. *)
Lemma build_frame_ascii (command_text : str) :
  Forall is_ascii command_text ->
  build_frame command_text
  = Ok (STX :: map ord command_text
          ++ [ETX; calculate_bcc (map ord command_text ++ [ETX])]).
Proof.
  intros Hascii. unfold build_frame.
  change (bytearray_append [] STX) with (Ok [STX]). cbn [bind].
  rewrite encode_ascii_Ok by exact Hascii. cbn [bind].
  rewrite bytearray_append_Ok by (unfold is_byte, ETX; lia).
  cbn [bind]. rewrite slice_from by lia.
  change (skipn (Z.to_nat 1) (([STX] ++ map ord command_text) ++ [ETX]))
    with (map ord command_text ++ [ETX]).
  rewrite bytearray_append_Ok.
  - cbn [bind app]. do 2 f_equal. now rewrite <- app_assoc.
  - apply calculate_bcc_is_byte, Forall_app. split.
    + now apply encoded_bytes.
    + constructor; [unfold is_byte, ETX; lia | constructor].
Qed.

End WireBytes.

(** X6.  Building the request frame succeeds exactly on ASCII command
    texts.  The frame then is three bytes longer than the text and every
    byte of it, the BCC included, is a 7-bit code.  A text with a character
    outside ASCII raises [UnicodeEncodeError]; no other exception occurs. *)
Theorem build_frame_outcomes (command_text : str) :
  (Forall is_ascii command_text ->
   exists frame,
     OmronV3.build_frame command_text = Ok frame /\
     len frame = len command_text + 3 /\
     Forall (fun byte => 0 <= byte < 128) frame) /\
  (Exists (fun c => 128 <= ord c) command_text ->
   OmronV3.build_frame command_text = Raise UnicodeEncodeError).
Proof.
  split.
  - intros Hascii. eexists. split; [now apply build_frame_ascii |].
    assert (Hdata : Forall (fun byte => 0 <= byte < 2 ^ 7)
                      (map ord command_text ++ [OmronV3.ETX])).
    { apply Forall_app. split.
      - apply Forall_map. eapply Forall_impl; [| exact Hascii].
        intros c Hc. unfold is_ascii in Hc. pose proof (ord_nonneg c).
        change (2 ^ 7) with 128. lia.
      - repeat constructor; unfold OmronV3.ETX; lia. }
    split.
    + rewrite len_cons, len_app. unfold len. rewrite length_map.
      cbn [List.length]. lia.
    + constructor; [unfold OmronV3.STX; lia |].
      change [OmronV3.ETX;
              OmronV3.calculate_bcc (map ord command_text ++ [OmronV3.ETX])]
        with ([OmronV3.ETX]
              ++ [OmronV3.calculate_bcc (map ord command_text ++ [OmronV3.ETX])]).
      rewrite app_assoc. apply Forall_app. split; [exact Hdata |].
      constructor; [| constructor].
      rewrite calculate_bcc_xor_all.
      apply (xor_all_lt_pow2 7); [lia | exact Hdata].
  - intros Hhigh. unfold OmronV3.build_frame.
    change (bytearray_append [] OmronV3.STX) with (Ok [OmronV3.STX]).
    cbn [bind]. now rewrite encode_ascii_Raise.
Qed.

Lemma build_frame_outcomes_witness :
  (exists frame,
     OmronV3.build_frame (lit "0100") = Ok frame /\
     len frame = len (lit "0100") + 3 /\
     Forall (fun byte => 0 <= byte < 128) frame) /\
  OmronV3.build_frame ["0"%char; "233"%char] = Raise UnicodeEncodeError.
Proof.
  split.
  - apply (proj1 (build_frame_outcomes (lit "0100"))).
    repeat constructor.
  - apply (proj2 (build_frame_outcomes ["0"%char; "233"%char])).
    right. left. vm_compute. discriminate.
Defined.

(** X7.  Encoding and decoding undo each other: text that encodes decodes
    back to itself, and decoded bytes encode again to the bytes read with
    those of 0x80 and above removed (so decoded text always encodes). *)
Theorem ascii_codec_round_trip :
  (forall s bs, encode_ascii s = Ok bs -> decode_ascii_ignore bs = s) /\
  (forall raw,
      Forall is_byte raw ->
      encode_ascii (decode_ascii_ignore raw)
      = Ok (filter (fun b => b <? 128) raw)).
Proof.
  split.
  - induction s as [| c s IH]; intros bs Henc; cbn [encode_ascii] in Henc.
    + now injection Henc as <-.
    + destruct (ord c <? 128) eqn:Hc; [| discriminate].
      destruct (encode_ascii s) as [bs' |]; [| discriminate].
      cbn [bind] in Henc. injection Henc as <-.
      unfold decode_ascii_ignore in *. cbn [filter]. rewrite Hc. cbn [map].
      now rewrite chr_ord, (IH bs' eq_refl).
  - unfold decode_ascii_ignore.
    induction 1 as [| b raw Hb Hraw IH]; [reflexivity |].
    cbn [filter]. destruct (b <? 128) eqn:E; [| exact IH].
    cbn [map encode_ascii]. rewrite ord_chr by assumption.
    rewrite E, IH. reflexivity.
Qed.

Lemma ascii_codec_round_trip_witness :
  decode_ascii_ignore [48; 49; 67] = lit "01C" /\
  encode_ascii (decode_ascii_ignore [2; 200; 48; 255; 3]) = Ok [2; 48; 3].
Proof.
  split.
  - apply (proj1 ascii_codec_round_trip (lit "01C") [48; 49; 67]).
    reflexivity.
  - apply (proj2 ascii_codec_round_trip [2; 200; 48; 255; 3]).
    repeat constructor; unfold is_byte; lia.
Defined.

(** X8.  A request frame read back from the port validates: for an ASCII
    command text without ETX, decoding the frame and validating it gives
    STX + text + ETX (the BCC is cut off), whose body is the command text
    again. *)
Theorem echoed_frame_validates (command_text : str) :
  Forall is_ascii command_text ->
  ~ In ETX_chr command_text ->
  exists frame,
    OmronV3.build_frame command_text = Ok frame /\
    OmronV3.validate_and_clean_response (decode_ascii_ignore frame)
    = Ok (STX_chr :: command_text ++ [ETX_chr]) /\
    slice (STX_chr :: command_text ++ [ETX_chr]) (Some 1) (Some (-1))
    = command_text.
Proof.
  intros Hascii Hetx. eexists. split; [now apply build_frame_ascii |].
  split; [| apply slice_strip_ends].
  change (OmronV3.STX :: map ord command_text
            ++ [OmronV3.ETX;
                OmronV3.calculate_bcc (map ord command_text ++ [OmronV3.ETX])])
    with ([OmronV3.STX] ++ map ord command_text
            ++ [OmronV3.ETX]
            ++ [OmronV3.calculate_bcc (map ord command_text ++ [OmronV3.ETX])]).
  rewrite !decode_ascii_ignore_app, decode_ascii_ignore_codes by assumption.
  change (decode_ascii_ignore [OmronV3.STX]) with [STX_chr].
  change (decode_ascii_ignore [OmronV3.ETX]) with [ETX_chr].
  cbn [app]. now apply validate_framed.
Qed.

Lemma echoed_frame_validates_witness :
  exists frame,
    OmronV3.build_frame OmronV3.data_ascii = Ok frame /\
    OmronV3.validate_and_clean_response (decode_ascii_ignore frame)
    = Ok (STX_chr :: OmronV3.data_ascii ++ [ETX_chr]) /\
    slice (STX_chr :: OmronV3.data_ascii ++ [ETX_chr]) (Some 1) (Some (-1))
    = OmronV3.data_ascii.
Proof.
  apply (echoed_frame_validates OmronV3.data_ascii).
  - repeat constructor.
  - vm_compute. intuition discriminate.
Defined.

(** X9.  Bytes of 0x80 and above are invisible to the receiving branch:
    wherever they stand in what was read, the run is the same as without
    them, in both scripts. *)
Theorem high_bytes_are_invisible (a noise b : list Z) :
  Forall (fun x => 128 <= x) noise ->
  decode_ascii_ignore (a ++ noise ++ b) = decode_ascii_ignore (a ++ b) /\
  OmronV3.read_and_process (a ++ noise ++ b)
  = OmronV3.read_and_process (a ++ b) /\
  Omron_TestScript_v2.read_and_process (a ++ noise ++ b)
  = Omron_TestScript_v2.read_and_process (a ++ b).
Proof.
  intros Hnoise.
  assert (Hdec : decode_ascii_ignore (a ++ noise ++ b)
                 = decode_ascii_ignore (a ++ b)).
  { rewrite !decode_ascii_ignore_app.
    now rewrite (decode_ascii_ignore_high noise Hnoise). }
  unfold OmronV3.read_and_process, Omron_TestScript_v2.read_and_process.
  rewrite Hdec. repeat split.
Qed.

Lemma high_bytes_are_invisible_witness :
  OmronV3.read_and_process ([] ++ [255; 128] ++ [2; 48; 3])
  = OmronV3.read_and_process ([] ++ [2; 48; 3]).
Proof.
  apply (high_bytes_are_invisible [] [255; 128] [2; 48; 3]).
  repeat constructor; lia.
Defined.

(* ================================================================== *)
(** * More on validation, extraction and their composition *)
(* ================================================================== *)

Section Pipeline.
Import OmronV3.

(** A call that returns lets the run go on. *)
Lemma invoke_Ok {A B} (c : call) (a : A) (k : A -> run B) :
  invoke c (Ok a) k = (c :: fst (k a), snd (k a)).
Proof. cbn [invoke]. now destruct (k a). Qed.

Lemma In_skipn {A} (x : A) (n : nat) (l : list A) :
  In x (skipn n l) -> In x l.
Proof.
  intros H. rewrite <- (firstn_skipn n l). apply in_or_app. now right.
Qed.

(** What the two scripts do with a validated frame. *)
Lemma process_response_after_validation raw_response cleaned_response :
  validate_and_clean_response raw_response = Ok cleaned_response ->
  OmronV3.process_response raw_response
  = (Call_validate_and_clean_response raw_response
       :: fst (data_section <-[ Call_extract_data_section cleaned_response ]
                 extract_data_section cleaned_response ;;
               decoded_value <-[ Call_decode_signed_value data_section ]
                 decode_signed_value data_section 16 ;;
               ([], Ok (truediv decoded_value 10))),
     snd (data_section <-[ Call_extract_data_section cleaned_response ]
            extract_data_section cleaned_response ;;
          decoded_value <-[ Call_decode_signed_value data_section ]
            decode_signed_value data_section 16 ;;
          ([], Ok (truediv decoded_value 10)))) /\
  Omron_TestScript_v2.process_response raw_response
  = (Call_validate_and_clean_response raw_response
       :: fst (data_section <-[ Call_extract_data_section cleaned_response ]
                 extract_data_section cleaned_response ;;
               value <-[ Call_int data_section ]
                 int_base16 data_section ;;
               ([], Ok (truediv value 10))),
     snd (data_section <-[ Call_extract_data_section cleaned_response ]
            extract_data_section cleaned_response ;;
          value <-[ Call_int data_section ]
            int_base16 data_section ;;
          ([], Ok (truediv value 10)))).
Proof.
  intros Hval.
  unfold OmronV3.process_response, Omron_TestScript_v2.process_response.
  change Omron_TestScript_v2.validate_and_clean_response
    with validate_and_clean_response.
  change Omron_TestScript_v2.extract_data_section with extract_data_section.
  rewrite Hval, !invoke_Ok. split; reflexivity.
Qed.

End Pipeline.

(** X10.  The shape of a validated frame: it is a prefix of the response,
    at least two characters long, starts with STX, ends with ETX and holds
    no other ETX. *)
Theorem validated_frame_shape (response cleaned : str) :
  OmronV3.validate_and_clean_response response = Ok cleaned ->
  (exists rest, response = cleaned ++ rest) /\
  hd_error cleaned = Some STX_chr /\
  last cleaned STX_chr = ETX_chr /\
  count_occ ascii_dec cleaned ETX_chr = 1%nat /\
  2 <= len cleaned <= len response.
Proof.
  intros Hok.
  destruct (validate_Ok_inv _ _ Hok) as (body & rest & -> & Hbody & ->).
  split; [exists rest; cbn [app]; now rewrite <- app_assoc |].
  split; [reflexivity |].
  split; [apply (last_last (STX_chr :: body)) |].
  split.
  - change (STX_chr :: body ++ [ETX_chr]) with ([STX_chr] ++ body ++ [ETX_chr]).
    rewrite !count_occ_app.
    apply (count_occ_not_In ascii_dec) in Hbody. rewrite Hbody. reflexivity.
  - unfold len. cbn [List.length]. rewrite !length_app.
    cbn [List.length]. lia.
Qed.

Lemma validated_frame_shape_witness :
  (exists rest,
      STX_chr :: lit "0100" ++ ETX_chr :: lit "B"
      = (STX_chr :: lit "0100" ++ [ETX_chr]) ++ rest) /\
  hd_error (STX_chr :: lit "0100" ++ [ETX_chr]) = Some STX_chr /\
  last (STX_chr :: lit "0100" ++ [ETX_chr]) STX_chr = ETX_chr /\
  count_occ ascii_dec (STX_chr :: lit "0100" ++ [ETX_chr]) ETX_chr = 1%nat /\
  2 <= len (STX_chr :: lit "0100" ++ [ETX_chr])
    <= len (STX_chr :: lit "0100" ++ ETX_chr :: lit "B").
Proof.
  apply (validated_frame_shape
           (STX_chr :: lit "0100" ++ ETX_chr :: lit "B")
           (STX_chr :: lit "0100" ++ [ETX_chr])).
  reflexivity.
Defined.

(** X11.  What follows the first ETX of a response, a block check
    character included, is never looked at: two responses that differ only
    there validate to the same frame, and the rest of the run and its
    outcome are the same, in both scripts. *)
Theorem bytes_after_ETX_are_ignored (body rest rest' : str) :
  ~ In ETX_chr body ->
  let r := STX_chr :: body ++ ETX_chr :: rest in
  let r' := STX_chr :: body ++ ETX_chr :: rest' in
  OmronV3.validate_and_clean_response r
  = OmronV3.validate_and_clean_response r' /\
  tl (fst (OmronV3.process_response r))
  = tl (fst (OmronV3.process_response r')) /\
  snd (OmronV3.process_response r) = snd (OmronV3.process_response r') /\
  tl (fst (Omron_TestScript_v2.process_response r))
  = tl (fst (Omron_TestScript_v2.process_response r')) /\
  snd (Omron_TestScript_v2.process_response r)
  = snd (Omron_TestScript_v2.process_response r').
Proof.
  intros Hbody r r'.
  pose proof (validate_framed body rest Hbody) as Hr.
  pose proof (validate_framed body rest' Hbody) as Hr'.
  fold r in Hr. fold r' in Hr'.
  destruct (process_response_after_validation _ _ Hr) as [H3 H2].
  destruct (process_response_after_validation _ _ Hr') as [H3' H2'].
  rewrite Hr, Hr', H3, H3', H2, H2'. repeat split.
Qed.

Lemma bytes_after_ETX_are_ignored_witness :
  snd (OmronV3.process_response
         (STX_chr :: lit "0100000000000FFF6" ++ ETX_chr :: lit "B"))
  = snd (OmronV3.process_response
           (STX_chr :: lit "0100000000000FFF6" ++ ETX_chr :: lit "?")).
Proof.
  apply (bytes_after_ETX_are_ignored
           (lit "0100000000000FFF6") (lit "B") (lit "?")).
  vm_compute. intuition discriminate.
Defined.

(** X12.  [extract_data_section] goes by length alone: a response of fewer
    than 18 characters is refused as too short; a longer one is accepted
    whatever its first and last characters are, and splits into the first
    character, 13 header characters, the data section and the last
    character, so the data section has the length of the response less 15,
    at least 3. *)
Theorem extract_data_section_by_length (response : str) :
  (len response < 18 ->
   OmronV3.extract_data_section response = Raise FrameTooShort) /\
  (18 <= len response ->
   exists first header data_section final,
     response = first :: header ++ data_section ++ [final] /\
     len header = 13 /\
     OmronV3.extract_data_section response = Ok data_section /\
     len data_section = len response - 15).
Proof.
  destruct response as [| a t].
  { split; [reflexivity | unfold len; cbn; lia]. }
  destruct t as [| x t'].
  2: destruct (exists_last (l := x :: t') ltac:(discriminate))
       as (body & b & ->).
  2: rewrite extract_framed.
  - split; [reflexivity | unfold len; cbn; lia].
  - 
    assert (Hlen : len (a :: body ++ [b]) = len body + 2).
    { rewrite len_cons, len_app. change (len [b]) with 1. lia. }
    rewrite Hlen. split; intros H.
    + destruct (len body <? 16) eqn:E; [reflexivity |].
      apply Z.ltb_ge in E. lia.
    + destruct (len body <? 16) eqn:E; [apply Z.ltb_lt in E; lia |].
      exists a, (firstn 13 body), (skipn 13 body), b.
      split; [now rewrite app_assoc, firstn_skipn |].
      unfold len in *. rewrite length_firstn, length_skipn.
      split; [lia | split; [reflexivity | lia]].
Qed.

Lemma extract_data_section_by_length_witness :
  OmronV3.extract_data_section (lit "0123456789ABCDEFG") = Raise FrameTooShort /\
  exists first header data_section final,
    lit "?0100000000000FFF6!" = first :: header ++ data_section ++ [final] /\
    len header = 13 /\
    OmronV3.extract_data_section (lit "?0100000000000FFF6!") = Ok data_section /\
    len data_section = len (lit "?0100000000000FFF6!") - 15.
Proof.
  split.
  - apply (proj1 (extract_data_section_by_length (lit "0123456789ABCDEFG"))).
    reflexivity.
  - apply (proj2 (extract_data_section_by_length (lit "?0100000000000FFF6!"))).
    vm_compute. discriminate.
Defined.

(** X13.  The three stages compose: on a response that starts with STX and
    whose text up to the first ETX has 16 characters or more, the run makes
    the three calls in order, the last one on the text from offset 13 of
    the body, which holds no ETX, and its outcome is that of decoding and
    scaling that text. *)
Theorem process_response_on_frame (body rest : str) :
  ~ In ETX_chr body ->
  16 <= len body ->
  let raw_response := STX_chr :: body ++ ETX_chr :: rest in
  let cleaned_response := STX_chr :: body ++ [ETX_chr] in
  let data_section := skipn 13 body in
  OmronV3.process_response raw_response
  = ([Call_validate_and_clean_response raw_response;
      Call_extract_data_section cleaned_response;
      Call_decode_signed_value data_section],
     OmronV3.display_value data_section) /\
  Omron_TestScript_v2.process_response raw_response
  = ([Call_validate_and_clean_response raw_response;
      Call_extract_data_section cleaned_response;
      Call_int data_section],
     Omron_TestScript_v2.display_value data_section) /\
  ~ In ETX_chr data_section.
Proof.
  intros Hbody Hlen raw_response cleaned_response data_section.
  pose proof (validate_framed body rest Hbody) as Hval.
  fold raw_response cleaned_response in Hval.
  assert (Hext : OmronV3.extract_data_section cleaned_response
                 = Ok data_section).
  { unfold cleaned_response. rewrite extract_framed.
    destruct (len body <? 16) eqn:E; [apply Z.ltb_lt in E; lia | reflexivity]. }
  destruct (process_response_after_validation _ _ Hval) as [H3 H2].
  rewrite H3, H2, Hext, !invoke_Ok.
  unfold OmronV3.display_value, Omron_TestScript_v2.display_value.
  split; [| split].
  - now destruct (OmronV3.decode_signed_value data_section 16).
  - now destruct (int_base16 data_section).
  - intros Hin. apply Hbody. now apply In_skipn in Hin.
Qed.

Lemma process_response_on_frame_witness :
  OmronV3.process_response
    (STX_chr :: lit "0100000000000FFF6" ++ ETX_chr :: lit "B")
  = ([Call_validate_and_clean_response
        (STX_chr :: lit "0100000000000FFF6" ++ ETX_chr :: lit "B");
      Call_extract_data_section
        (STX_chr :: lit "0100000000000FFF6" ++ [ETX_chr]);
      Call_decode_signed_value (skipn 13 (lit "0100000000000FFF6"))],
     OmronV3.display_value (skipn 13 (lit "0100000000000FFF6"))).
Proof.
  apply (process_response_on_frame (lit "0100000000000FFF6") (lit "B")).
  - vm_compute. intuition discriminate.
  - vm_compute. discriminate.
Defined.

(* ================================================================== *)
(** * More on signed decoding *)
(* ================================================================== *)

Section HexDigits.

(** What a digit is not: white space, a sign, an underscore or the [x] of
    a prefix. *)
Lemma hex_digit_facts (c : ascii) :
  is_hex_digit c = true ->
  exists d,
    digit_value c = Some d /\ 0 <= d < 16 /\
    isspace c = false /\
    Ascii.eqb c "+" = false /\ Ascii.eqb c "-" = false /\
    Ascii.eqb c "_" = false /\
    Ascii.eqb c "x" = false /\ Ascii.eqb c "X" = false.
Proof.
  intros H.
  destruct c as [[] [] [] [] [] [] [] []];
    vm_compute in H; try discriminate H;
    (eexists; split; [vm_compute; reflexivity |];
     split; [lia | repeat split]).
Qed.

(** Digits without underscores are all read, most significant first. *)
Lemma scan_digits_plain (s : str) : forall acc n,
  forallb is_hex_digit s = true ->
  exists v,
    scan_digits s acc n false = Some (v, (n + List.length s)%nat, []) /\
    acc * 16 ^ len s <= v < (acc + 1) * 16 ^ len s.
Proof.
  induction s as [| c s IH]; intros acc n Hs.
  - exists acc. cbn [scan_digits List.length]. rewrite Nat.add_0_r.
    split; [reflexivity |]. change (16 ^ len []) with 1. lia.
  - cbn [forallb] in Hs. apply andb_prop in Hs as [Hc Hs].
    destruct (hex_digit_facts c Hc) as (d & Hd & Hrange & _ & _ & _ & Hu & _).
    destruct (IH (acc * 16 + d) (S n) Hs) as (v & Hv & Hb).
    exists v. cbn [scan_digits]. rewrite Hu, Hd, Hv.
    split; [do 3 f_equal; cbn [List.length]; lia |].
    rewrite len_cons, Z.pow_add_r by (pose proof (len_nonneg s); lia).
    change (16 ^ 1) with 16.
    assert (0 < 16 ^ len s) by (apply Z.pow_pos_nonneg; [lia | apply len_nonneg]).
    nia.
Qed.

(** [int(_, 16)] on digits alone. *)
Lemma int_base16_plain (s : str) :
  s <> [] ->
  forallb is_hex_digit s = true ->
  exists v, int_base16 s = Ok v /\ 0 <= v < 16 ^ len s.
Proof.
  intros Hne Hs. destruct s as [| c t]; [congruence |].
  pose proof Hs as Hs'. cbn [forallb] in Hs'.
  apply andb_prop in Hs' as [Hc Ht].
  destruct (hex_digit_facts c Hc) as (d & _ & _ & Hsp & Hplus & Hminus & Hu & _).
  destruct (scan_digits_plain (c :: t) 0 0 Hs) as (v & Hv & Hb).
  exists v. split; [| lia].
  unfold int_base16. cbn [lstrip]. rewrite Hsp.
  unfold skip_sign. rewrite Hplus, Hminus.
  assert (Hpre : skip_prefix (c :: t) = c :: t).
  { destruct t as [| x t']; [reflexivity |].
    cbn [forallb] in Ht. apply andb_prop in Ht as [Hx _].
    destruct (hex_digit_facts x Hx) as (? & _ & _ & _ & _ & _ & _ & Hx1 & Hx2).
    unfold skip_prefix. rewrite Hx1, Hx2. now rewrite andb_false_r. }
  rewrite Hpre. cbn [starts_with]. rewrite Hu, Hv. reflexivity.
Qed.

End HexDigits.

(** X14.  Two's complement round trip, for every bit length from 1 on: if
    the data section parses to the [bit_length]-bit pattern of a signed
    value [x], that is to [x mod 2^bit_length], then [decode_signed_value]
    gives [x] back. *)
Theorem decode_signed_value_recovers (hex_value : str) (bit_length x : Z) :
  1 <= bit_length ->
  - 2 ^ (bit_length - 1) <= x < 2 ^ (bit_length - 1) ->
  int_base16 hex_value = Ok (x mod 2 ^ bit_length) ->
  OmronV3.decode_signed_value hex_value bit_length = Ok x.
Proof.
  intros Hb Hx Hint. unfold OmronV3.decode_signed_value.
  rewrite Hint. cbn [bind].
  assert (Hpow : 2 ^ bit_length = 2 * 2 ^ (bit_length - 1)).
  { rewrite <- Z.pow_succ_r by lia. f_equal. lia. }
  assert (Hpos : 0 < 2 ^ (bit_length - 1)) by (apply Z.pow_pos_nonneg; lia).
  rewrite Z.geb_leb.
  destruct (Z_lt_ge_dec x 0) as [Hneg | Hnn].
  - assert (Hmod : x mod 2 ^ bit_length = x + 2 ^ bit_length).
    { symmetry. apply (Z.mod_unique _ _ (-1)); lia. }
    rewrite Hmod.
    destruct (2 ^ (bit_length - 1) <=? x + 2 ^ bit_length) eqn:E.
    + f_equal. lia.
    + apply Z.leb_gt in E. lia.
  - rewrite Z.mod_small by lia.
    destruct (2 ^ (bit_length - 1) <=? x) eqn:E; [| reflexivity].
    apply Z.leb_le in E. lia.
Qed.

Lemma decode_signed_value_recovers_witness :
  OmronV3.decode_signed_value (lit "FFF6") 16 = Ok (-10) /\
  OmronV3.decode_signed_value (lit "FFFFFFF6") 32 = Ok (-10) /\
  OmronV3.decode_signed_value (lit "7F") 8 = Ok 127.
Proof.
  split; [| split].
  - apply (decode_signed_value_recovers (lit "FFF6") 16 (-10)).
    + lia.
    + vm_compute. intuition discriminate.
    + reflexivity.
  - apply (decode_signed_value_recovers (lit "FFFFFFF6") 32 (-10)).
    + lia.
    + vm_compute. intuition discriminate.
    + reflexivity.
  - apply (decode_signed_value_recovers (lit "7F") 8 127).
    + lia.
    + vm_compute. intuition discriminate.
    + reflexivity.
Defined.

(** X15.  A data section of hexadecimal digits alone always decodes, and
    the result is confined to the signed range when the bit length matches
    the number of digits, four bits a digit: [n] digits parse to a value
    below [16^n] and decode, at bit length [4n], to a value from
    [-2^(4n-1)] up to [2^(4n-1) - 1] that is congruent to the parsed one.
    For four digits and the default bit length this is the signed 16-bit
    range. *)
Theorem decode_signed_value_of_digits (hex_value : str) :
  hex_value <> [] ->
  forallb is_hex_digit hex_value = true ->
  let bit_length := 4 * len hex_value in
  exists v r,
    int_base16 hex_value = Ok v /\
    0 <= v < 2 ^ bit_length /\
    OmronV3.decode_signed_value hex_value bit_length = Ok r /\
    - 2 ^ (bit_length - 1) <= r < 2 ^ (bit_length - 1) /\
    r mod 2 ^ bit_length = v.
Proof.
  intros Hne Hdigits bit_length.
  destruct (int_base16_plain hex_value Hne Hdigits) as (v & Hint & Hv).
  assert (Hlen : 1 <= len hex_value).
  { destruct hex_value; [congruence |]. rewrite len_cons.
    pose proof (len_nonneg hex_value). lia. }
  assert (H16 : 16 ^ len hex_value = 2 ^ bit_length).
  { unfold bit_length. change 16 with (2 ^ 4).
    rewrite <- Z.pow_mul_r by lia. reflexivity. }
  rewrite H16 in Hv.
  assert (Hpow : 2 ^ bit_length = 2 * 2 ^ (bit_length - 1)).
  { rewrite <- Z.pow_succ_r by (unfold bit_length; lia). f_equal. lia. }
  assert (Hpos : 0 < 2 ^ (bit_length - 1))
    by (apply Z.pow_pos_nonneg; unfold bit_length; lia).
  exists v. unfold OmronV3.decode_signed_value. rewrite Hint. cbn [bind].
  rewrite Z.geb_leb.
  destruct (2 ^ (bit_length - 1) <=? v) eqn:E.
  - apply Z.leb_le in E. exists (v - 2 ^ bit_length).
    repeat split; try lia.
    symmetry. apply (Z.mod_unique _ _ (-1)); lia.
  - apply Z.leb_gt in E. exists v.
    repeat split; try lia. apply Z.mod_small. lia.
Qed.

Lemma decode_signed_value_of_digits_witness :
  exists v r,
    int_base16 (lit "FFF6") = Ok v /\
    0 <= v < 2 ^ 16 /\
    OmronV3.decode_signed_value (lit "FFF6") 16 = Ok r /\
    - 2 ^ (16 - 1) <= r < 2 ^ (16 - 1) /\
    r mod 2 ^ 16 = v.
Proof.
  apply (decode_signed_value_of_digits (lit "FFF6")).
  - discriminate.
  - reflexivity.
Defined.

(** X16.  The readings a four-digit data section can display: from -3276.8
    to 3276.7 in the V3 script, from 0 to 6553.5 in the V2 script, which
    therefore never shows a negative one. *)
Theorem display_value_range (data_section : str) :
  List.length data_section = 4%nat ->
  forallb is_hex_digit data_section = true ->
  (exists q, OmronV3.display_value data_section = Ok q /\
             (-3276.8 <= q <= 3276.7)%Q) /\
  (exists q, Omron_TestScript_v2.display_value data_section = Ok q /\
             (0 <= q <= 6553.5)%Q).
Proof.
  intros Hlen Hdigits.
  assert (Hne : data_section <> []) by (destruct data_section; discriminate).
  destruct (int_base16_plain data_section Hne Hdigits) as (v & Hint & Hv).
  unfold len in Hv. rewrite Hlen in Hv. change (16 ^ Z.of_nat 4) with 65536 in Hv.
  split.
  - eexists. split; [exact (display_value_v3 _ _ Hint) |].
    destruct (32768 <=? v) eqn:E;
      [apply Z.leb_le in E | apply Z.leb_gt in E];
      unfold truediv, Qle, Qdiv, Qmult, Qinv, inject_Z; cbn; lia.
  - eexists. split; [exact (display_value_v2 _ _ Hint) |].
    unfold truediv, Qle, Qdiv, Qmult, Qinv, inject_Z; cbn; lia.
Qed.

Lemma display_value_range_witness :
  (exists q, OmronV3.display_value (lit "8000") = Ok q /\
             (-3276.8 <= q <= 3276.7)%Q) /\
  (exists q, Omron_TestScript_v2.display_value (lit "8000") = Ok q /\
             (0 <= q <= 6553.5)%Q).
Proof.
  apply (display_value_range (lit "8000")); reflexivity.
Defined.

(** X17.  The check a receiver can run on a frame: the XOR over a segment
    followed by one more byte is 0 exactly when that byte is the BCC of the
    segment. *)
Theorem calculate_bcc_check_byte (segment : list Z) (b : Z) :
  OmronV3.calculate_bcc (segment ++ [b]) = 0
  <-> b = OmronV3.calculate_bcc segment.
Proof.
  rewrite calculate_bcc_snoc. split.
  - intros H. symmetry. now apply Z.lxor_eq.
  - intros ->. apply Z.lxor_nilpotent.
Qed.
